(** * Drop-and-bounce simulation of [my-vue-app/src/App.tsx]

    A shallow embedding of the physics core of the [GravitySimulator]
    component: the closure-captured locals [velocity], [isResting] and
    [sphere.position.y], the frame callback [animate] and the click handler
    [resetSimulation].

    Numbers.  The source computes with JavaScript numbers, which are
    binary64 floating-point numbers.  Two embeddings are given.  In the first,
    used for everything that rests on comparisons and assignments (branches,
    invariants, traces), numbers are exact rationals [Q]: every arithmetic
    operator of the source is the corresponding operator of [Q], [Math.abs] is
    [Qabs], [Math.min] is [Qmin] and [<], [>] are the order of [Q]; fields
    that the source assigns are compared with Leibniz equality, values that
    are the result of arithmetic with [==].  The second, the module
    [Binary64], is the same code over the kernel's binary64 numbers, every
    operation rounded as the source rounds it; it is used wherever the value
    a computation produces matters.

    Collaborators.  [THREE.Clock], [requestAnimationFrame] and the renderer
    are external.  A frame receives the value that [clock.getDelta()] would
    return as an argument, and what the frame does to its collaborators is
    recorded, in program order, in a trace of events. *)

From Stdlib Require Import QArith Qabs Qminmax Lqa List Bool Arith Lia.
From Stdlib Require Import PrimFloat.

Set Warnings "-inexact-float".
Import ListNotations.

Open Scope Q_scope.

(** ** Comparison operators of the source *)

(** [x < y] of the source. *)
Definition Qltb (x y : Q) : bool := negb (Qle_bool y x).

(** [x > y] of the source. *)
Definition Qgtb (x y : Q) : bool := Qltb y x.

(** ** Data model *)

(** The four [useState] values the effect closes over (lines 6-9); the
    effect is re-run, and the session rebuilt, whenever one of them changes
    (line 153), so they are constant during a session. *)
Record SimulationParameters : Type := mkParams {
  restitution : Q;
  gravity : Q;
  sphereRadius : Q;
  friction : Q
}.

(** The initial values of the four [useState] calls. *)
Definition defaultParameters : SimulationParameters :=
  {| restitution := 0.7; gravity := 9.8; sphereRadius := 1; friction := 0.03 |}.

(** [const restThreshold = 0.01] (line 78). *)
Definition restThreshold : Q := 0.01.

(** The literal [10] of lines 71 and 129. *)
Definition dropHeight : Q := 10.

(** The literal [0.1] of line 96. *)
Definition maxDelta : Q := 0.1.

(** The mutable locals of the session: [sphere.position.y], [velocity],
    [isResting]. *)
Record PhysicsState : Type := mkState {
  positionY : Q;
  velocity : Q;
  isResting : bool
}.

(** What a frame or a click does to the collaborators. *)
Inductive Event : Type :=
| RequestAnimationFrame          (* requestAnimationFrame(animate) *)
| ClockGetDelta                  (* clock.getDelta() *)
| Render (y : Q).                (* renderer.render(scene, camera), sphere at height y *)

(** The session: the physics state and the events so far, oldest first. *)
Record World : Type := mkWorld {
  phys : PhysicsState;
  trace : list Event
}.

(** ** Operations *)

Section Session.

Variable p : SimulationParameters.

(** Lines 98-102:
    [velocity -= gravity * delta; sphere.position.y += velocity * delta]. *)
Definition integrate (delta : Q) (s : PhysicsState) : PhysicsState :=
  let v := velocity s - gravity p * delta in
  {| positionY := positionY s + v * delta;
     velocity := v;
     isResting := isResting s |}.

(** Lines 105-119: the ground collision check. *)
Definition resolve (s : PhysicsState) : PhysicsState :=
  if Qltb (positionY s) (sphereRadius p) then
    if Qgtb (Qabs (velocity s)) restThreshold then
      let v := - velocity s * restitution p in
      {| positionY := sphereRadius p;
         velocity := v * (1 - friction p);
         isResting := isResting s |}
    else
      {| positionY := sphereRadius p;
         velocity := 0;
         isResting := true |}
  else s.

(** Line 96: [Math.min(clock.getDelta(), 0.1)], [raw] being what
    [clock.getDelta()] returns. *)
Definition cappedDelta (raw : Q) : Q := Qmin raw maxDelta.

(** Lines 92-123: one invocation of the frame callback.  [raw] is what
    [clock.getDelta()] returns if the frame calls it. *)
Definition animate (raw : Q) (w : World) : World :=
  let t := trace w ++ [RequestAnimationFrame] in
  if negb (isResting (phys w)) then
    let delta := cappedDelta raw in
    let s := resolve (integrate delta (phys w)) in
    {| phys := s; trace := (t ++ [ClockGetDelta]) ++ [Render (positionY s)] |}
  else
    {| phys := phys w; trace := t ++ [Render (positionY (phys w))] |}.

(** Lines 128-132. *)
Definition resetSimulation (w : World) : World :=
  {| phys := {| positionY := dropHeight; velocity := 0; isResting := false |};
     trace := trace w |}.

(** Lines 71, 76, 77: the state of a session before its first frame. *)
Definition initialState : PhysicsState :=
  {| positionY := 10; velocity := 0; isResting := false |}.

Definition sessionStart : World := {| phys := initialState; trace := [] |}.

(** What can happen to a session: a frame, or a click on the reset button. *)
Inductive Action : Type :=
| Frame (raw : Q)
| ResetClick.

Definition step (w : World) (a : Action) : World :=
  match a with
  | Frame raw => animate raw w
  | ResetClick => resetSimulation w
  end.

Definition run (acts : list Action) (w : World) : World :=
  fold_left step acts w.

(** Frames only. *)
Definition frames (raws : list Q) (w : World) : World :=
  fold_left (fun w raw => animate raw w) raws w.

Inductive reachable : World -> Prop :=
| reachable_start : reachable sessionStart
| reachable_step w a : reachable w -> reachable (step w a).

End Session.

Arguments Frame raw%_Q.

(** ** Bounce events of a run *)

Section Observations.

Variable p : SimulationParameters.

(** The test of lines 105 and 109 on the state the integration produced:
    the frame takes the bounce branch (lines 110-113). *)
Definition bounces (s : PhysicsState) : bool :=
  Qltb (positionY s) (sphereRadius p) && Qgtb (Qabs (velocity s)) restThreshold.

(** The speed at which the sphere meets the ground in a frame that starts in
    state [s]: [Math.abs(velocity)] as line 109 reads it. *)
Definition contactSpeed (raw : Q) (s : PhysicsState) : Q :=
  Qabs (velocity (integrate p (cappedDelta raw) s)).

(** The velocity the bounce branch leaves, for every frame of a run that
    takes it, oldest first. *)
Fixpoint reboundSpeeds (raws : list Q) (w : World) : list Q :=
  match raws with
  | [] => []
  | raw :: rest =>
      let w' := animate p raw w in
      let here :=
        if negb (isResting (phys w))
           && bounces (integrate p (cappedDelta raw) (phys w))
        then [velocity (phys w')] else [] in
      here ++ reboundSpeeds rest w'
  end.

(** The events one frame appends to the trace. *)
Definition eventsOfFrame (raw : Q) (w : World) : list Event :=
  skipn (length (trace w)) (trace (animate p raw w)).

End Observations.

(** Each element is strictly smaller than the one before it. *)
Fixpoint strictlyDecreasing (l : list Q) : Prop :=
  match l with
  | x :: (y :: _) as t => y < x /\ strictlyDecreasing t
  | _ => True
  end.

(** The same, as a test. *)
Fixpoint strictlyDecreasingb (l : list Q) : bool :=
  match l with
  | x :: (y :: _) as t => Qltb y x && strictlyDecreasingb t
  | _ => true
  end.

(** A run of the default session that ends at rest: 58 frames whose clock
    delta is at or over the cap, then one frame of 53 ms. *)
Definition runToRest : list Action :=
  map Frame (repeat 0.1 58%nat ++ [0.053]).

(** A session under strong gravity and a frame rate so low that every
    clock delta is capped. *)
Definition steepParameters : SimulationParameters :=
  {| restitution := 0.5; gravity := 1000; sphereRadius := 1; friction := 0 |}.

(** A session that has come to rest on the ground. *)
Definition restingWorld : World :=
  {| phys := {| positionY := 1; velocity := 0; isResting := true |};
     trace := [] |}.

(** The regime a session with the default parameters settles in when every
    clock delta is capped: on the ground, not resting, and leaving it at a
    speed near 0.4. *)
Definition jitters (s : PhysicsState) : Prop :=
  isResting s = false /\ positionY s = 1 /\ 0.3 <= velocity s <= 0.52.

(** ** Quantities that describe a run *)

(** What one frame does to the physics state, whatever the trace: the
    block of lines 95-120. *)
Definition physStep (p : SimulationParameters) (raw : Q) (s : PhysicsState) :
  PhysicsState :=
  if negb (isResting s) then resolve p (integrate p (cappedDelta raw) s) else s.

(** The factor lines 110 and 113 together multiply the speed with. *)
Definition bounceFactor (p : SimulationParameters) : Q :=
  restitution p * (1 - friction p).

(** The heights at which a trace shows the sphere, oldest first. *)
Definition renderedHeights (t : list Event) : list Q :=
  flat_map (fun e => match e with Render y => [y] | _ => [] end) t.

Definition isRequest (e : Event) : bool :=
  match e with RequestAnimationFrame => true | _ => false end.

Definition isClockRead (e : Event) : bool :=
  match e with ClockGetDelta => true | _ => false end.

Definition isRender (e : Event) : bool :=
  match e with Render _ => true | _ => false end.

(** How many events of a kind a trace holds. *)
Definition occurrences (kind : Event -> bool) (t : list Event) : nat :=
  length (filter kind t).

(** How many frames a list of actions holds. *)
Fixpoint frameCount (acts : list Action) : nat :=
  match acts with
  | [] => O
  | Frame _ :: rest => S (frameCount rest)
  | ResetClick :: rest => frameCount rest
  end.

(** On the ground, not resting, and leaving the ground no faster than a
    bounce after one frame of free fall from rest would: the regime in which
    a frame of length [d] ends in a bounce. *)
Definition trapped (p : SimulationParameters) (d : Q) (s : PhysicsState) : Prop :=
  isResting s = false /\
  positionY s == sphereRadius p /\
  0 <= velocity s <= bounceFactor p * (gravity p * d).

(** Two states that hold the same numbers, possibly as different fractions. *)
Definition sameState (s t : PhysicsState) : Prop :=
  positionY s == positionY t /\ velocity s == velocity t /\
  isResting s = isResting t.

(** The same state with its fractions in lowest terms. *)
Definition normalise (s : PhysicsState) : PhysicsState :=
  {| positionY := Qred (positionY s);
     velocity := Qred (velocity s);
     isResting := isResting s |}.

(** [n] frames of the same clock delta, with the fractions kept in lowest
    terms. *)
Fixpoint stepsNormalised (p : SimulationParameters) (raw : Q) (n : nat)
    (s : PhysicsState) : PhysicsState :=
  match n with
  | O => s
  | S n => stepsNormalised p raw n (normalise (physStep p raw s))
  end.

(** ** The same code over binary64 numbers *)

Module Binary64.

#[local] Set Warnings "-inexact-float".
#[local] Open Scope float_scope.

(** The four [useState] values (lines 6-9). *)
Record Parameters : Type := mkParameters {
  restitution : float;
  gravity : float;
  sphereRadius : float;
  friction : float
}.

(** The initial values of the four [useState] calls. *)
Definition defaultParameters : Parameters :=
  {| restitution := 0.7; gravity := 9.8; sphereRadius := 1; friction := 0.03 |}.

(** [const restThreshold = 0.01] (line 78). *)
Definition restThreshold : float := 0.01.

(** The literal [0.1] of line 96. *)
Definition maxDelta : float := 0.1.

(** [sphere.position.y], [velocity], [isResting]. *)
Record State : Type := mkState {
  positionY : float;
  velocity : float;
  isResting : bool
}.

(** Lines 71, 76, 77. *)
Definition initialState : State :=
  {| positionY := 10; velocity := 0; isResting := false |}.

(** [Math.min] of two numbers: NaN if either is NaN, and [-0] below [+0]. *)
Definition min (x y : float) : float :=
  if is_nan x then x
  else if is_nan y then y
  else if x <? y then x
  else if y <? x then y
  else if get_sign x then x else y.

Section Session.

Variable p : Parameters.

(** Lines 98-102. *)
Definition integrate (delta : float) (s : State) : State :=
  let v := velocity s - gravity p * delta in
  {| positionY := positionY s + v * delta;
     velocity := v;
     isResting := isResting s |}.

(** Lines 105-119; [a > b] of the source is [b <? a]. *)
Definition resolve (s : State) : State :=
  if positionY s <? sphereRadius p then
    if restThreshold <? abs (velocity s) then
      let v := - velocity s * restitution p in
      {| positionY := sphereRadius p;
         velocity := v * (1 - friction p);
         isResting := isResting s |}
    else
      {| positionY := sphereRadius p;
         velocity := 0;
         isResting := true |}
  else s.

(** Lines 95-120: what one frame does to the physics state, [raw] being
    what [clock.getDelta()] returns. *)
Definition animate (raw : float) (s : State) : State :=
  if negb (isResting s) then resolve (integrate (min raw maxDelta) s) else s.

(** The frame takes the bounce branch (lines 110-113). *)
Definition bounces (raw : float) (s : State) : bool :=
  negb (isResting s)
  && (let s' := integrate (min raw maxDelta) s in
      (positionY s' <? sphereRadius p) && (restThreshold <? abs (velocity s'))).

(** One frame after the other, without a reset. *)
Definition frames (raws : list float) (s : State) : State :=
  fold_left (fun s raw => animate raw s) raws s.

End Session.

(** The state of the default session after [n] frames in each of which
    [clock.getDelta()] returns 16 ms. *)
Definition steady (n : nat) : State :=
  frames defaultParameters (repeat 0.016 n) initialState.

(** A contact at velocity -1. *)
Definition contactAtMinusOne : State :=
  {| positionY := 0.99; velocity := -1; isResting := false |}.

End Binary64.

(** ** Facts about the comparison operators *)

Lemma Qltb_true (x y : Q) : Qltb x y = true <-> x < y.
Proof.
  unfold Qltb. rewrite negb_true_iff, <- not_true_iff_false, Qle_bool_iff.
  split; intro H; [apply Qnot_le_lt | apply Qlt_not_le]; exact H.
Qed.

Lemma Qltb_false (x y : Q) : Qltb x y = false <-> y <= x.
Proof.
  unfold Qltb. rewrite negb_false_iff. apply Qle_bool_iff.
Qed.

Lemma Qltb_spec (x y : Q) : BoolSpec (x < y) (y <= x) (Qltb x y).
Proof.
  destruct (Qltb x y) eqn:E; constructor.
  - apply Qltb_true; exact E.
  - apply Qltb_false; exact E.
Qed.

Lemma strictlyDecreasingb_complete (l : list Q) :
  strictlyDecreasing l -> strictlyDecreasingb l = true.
Proof.
  induction l as [| x [| y t] IH]; try reflexivity.
  intros [L D]. cbn [strictlyDecreasingb].
  apply andb_true_intro. split; [apply Qltb_true, L | apply IH, D].
Qed.

(** ** The collision check *)

Section Resolve.

Variable p : SimulationParameters.

Lemma resolve_no_contact (s : PhysicsState) :
  sphereRadius p <= positionY s -> resolve p s = s.
Proof.
  intro H. unfold resolve.
  destruct (Qltb_spec (positionY s) (sphereRadius p)) as [C | _];
    [exfalso; lra | reflexivity].
Qed.

Lemma resolve_bounce (s : PhysicsState) :
  positionY s < sphereRadius p ->
  restThreshold < Qabs (velocity s) ->
  resolve p s =
    {| positionY := sphereRadius p;
       velocity := - velocity s * restitution p * (1 - friction p);
       isResting := isResting s |}.
Proof.
  intros C V. unfold resolve, Qgtb.
  destruct (Qltb_spec (positionY s) (sphereRadius p)) as [_ | N];
    [| exfalso; lra].
  destruct (Qltb_spec restThreshold (Qabs (velocity s))) as [_ | N];
    [reflexivity | exfalso; lra].
Qed.

Lemma resolve_rest (s : PhysicsState) :
  positionY s < sphereRadius p ->
  Qabs (velocity s) <= restThreshold ->
  resolve p s =
    {| positionY := sphereRadius p; velocity := 0; isResting := true |}.
Proof.
  intros C V. unfold resolve, Qgtb.
  destruct (Qltb_spec (positionY s) (sphereRadius p)) as [_ | N];
    [| exfalso; lra].
  destruct (Qltb_spec restThreshold (Qabs (velocity s))) as [N | _];
    [exfalso; lra | reflexivity].
Qed.

(** The three outcomes of the check, as a case analysis. *)
Lemma resolve_cases (s : PhysicsState) :
  (sphereRadius p <= positionY s /\ resolve p s = s) \/
  (positionY s < sphereRadius p /\ restThreshold < Qabs (velocity s) /\
   resolve p s =
     {| positionY := sphereRadius p;
        velocity := - velocity s * restitution p * (1 - friction p);
        isResting := isResting s |}) \/
  (positionY s < sphereRadius p /\ Qabs (velocity s) <= restThreshold /\
   resolve p s =
     {| positionY := sphereRadius p; velocity := 0; isResting := true |}).
Proof.
  destruct (Qlt_le_dec (positionY s) (sphereRadius p)) as [C | C].
  - destruct (Qlt_le_dec restThreshold (Qabs (velocity s))) as [V | V].
    + right; left. auto using resolve_bounce.
    + right; right. auto using resolve_rest.
  - left. auto using resolve_no_contact.
Qed.

End Resolve.

(** ** The frame callback *)

Section Animate.

Variable p : SimulationParameters.

Lemma animate_falling (raw : Q) (w : World) :
  isResting (phys w) = false ->
  animate p raw w =
    let s := resolve p (integrate p (cappedDelta raw) (phys w)) in
    {| phys := s;
       trace := trace w ++ [RequestAnimationFrame; ClockGetDelta; Render (positionY s)] |}.
Proof.
  intro H. unfold animate. rewrite H. cbn.
  rewrite <- !app_assoc. reflexivity.
Qed.

Lemma animate_resting (raw : Q) (w : World) :
  isResting (phys w) = true ->
  animate p raw w =
    {| phys := phys w;
       trace := trace w ++ [RequestAnimationFrame; Render (positionY (phys w))] |}.
Proof.
  intro H. unfold animate. rewrite H. cbn.
  rewrite <- app_assoc. reflexivity.
Qed.

Lemma phys_animate_falling (raw : Q) (w : World) :
  isResting (phys w) = false ->
  phys (animate p raw w) = resolve p (integrate p (cappedDelta raw) (phys w)).
Proof. intro H. rewrite animate_falling by exact H. reflexivity. Qed.

Lemma phys_animate_resting (raw : Q) (w : World) :
  isResting (phys w) = true -> phys (animate p raw w) = phys w.
Proof. intro H. rewrite animate_resting by exact H. reflexivity. Qed.

End Animate.

(** ** Contracts of the collision check and of the integration *)

(** The collision check and the integration in binary64: the equations
    the definitions unfold to. *)

Lemma resolve64_no_contact (p : Binary64.Parameters) (s : Binary64.State) :
  (Binary64.positionY s <? Binary64.sphereRadius p)%float = false ->
  Binary64.resolve p s = s.
Proof. intro C. unfold Binary64.resolve. rewrite C. reflexivity. Qed.

Lemma resolve64_bounce (p : Binary64.Parameters) (s : Binary64.State) :
  (Binary64.positionY s <? Binary64.sphereRadius p)%float = true ->
  (Binary64.restThreshold <? abs (Binary64.velocity s))%float = true ->
  Binary64.resolve p s =
    {| Binary64.positionY := Binary64.sphereRadius p;
       Binary64.velocity :=
         (- Binary64.velocity s * Binary64.restitution p
          * (1 - Binary64.friction p))%float;
       Binary64.isResting := Binary64.isResting s |}.
Proof. intros C V. unfold Binary64.resolve. rewrite C, V. reflexivity. Qed.

Lemma resolve64_rest (p : Binary64.Parameters) (s : Binary64.State) :
  (Binary64.positionY s <? Binary64.sphereRadius p)%float = true ->
  (Binary64.restThreshold <? abs (Binary64.velocity s))%float = false ->
  Binary64.resolve p s =
    {| Binary64.positionY := Binary64.sphereRadius p;
       Binary64.velocity := 0%float;
       Binary64.isResting := true |}.
Proof. intros C V. unfold Binary64.resolve. rewrite C, V. reflexivity. Qed.

(** C1, as the code has it: the collision check leaves the state alone
    when [positionY >= sphereRadius]; otherwise it sets [positionY] to the
    radius and, when [abs(velocity) > restThreshold], sets [velocity] to
    [-velocity * restitution * (1 - friction)], and when
    [abs(velocity) <= restThreshold] sets [velocity] to 0 and [isResting] to
    true.  The product is computed from left to right in binary64, rounded
    after each operation: a contact at velocity -1 with restitution 0.7 and
    friction 0.03 leaves the velocity 0.6789999999999999. *)
Theorem resolve_contract (p : SimulationParameters) (s : PhysicsState)
    (p' : Binary64.Parameters) (s' : Binary64.State) :
  (sphereRadius p <= positionY s -> resolve p s = s) /\
  (positionY s < sphereRadius p -> restThreshold < Qabs (velocity s) ->
   resolve p s =
     {| positionY := sphereRadius p;
        velocity := - velocity s * restitution p * (1 - friction p);
        isResting := isResting s |}) /\
  (positionY s < sphereRadius p -> Qabs (velocity s) <= restThreshold ->
   resolve p s =
     {| positionY := sphereRadius p; velocity := 0; isResting := true |}) /\
  ((Binary64.positionY s' <? Binary64.sphereRadius p')%float = false ->
   Binary64.resolve p' s' = s') /\
  ((Binary64.positionY s' <? Binary64.sphereRadius p')%float = true ->
   (Binary64.restThreshold <? abs (Binary64.velocity s'))%float = true ->
   Binary64.resolve p' s' =
     {| Binary64.positionY := Binary64.sphereRadius p';
        Binary64.velocity :=
          (- Binary64.velocity s' * Binary64.restitution p'
           * (1 - Binary64.friction p'))%float;
        Binary64.isResting := Binary64.isResting s' |}) /\
  ((Binary64.positionY s' <? Binary64.sphereRadius p')%float = true ->
   (Binary64.restThreshold <? abs (Binary64.velocity s'))%float = false ->
   Binary64.resolve p' s' =
     {| Binary64.positionY := Binary64.sphereRadius p';
        Binary64.velocity := 0%float;
        Binary64.isResting := true |}) /\
  ((Binary64.positionY s' <? Binary64.sphereRadius p')%float = true ->
   Binary64.velocity s' = (-1)%float ->
   Binary64.restitution p' = 0.7%float ->
   Binary64.friction p' = 0.03%float ->
   Binary64.velocity (Binary64.resolve p' s') = 0.6789999999999999%float).
Proof.
  split; [apply resolve_no_contact |].
  split; [apply resolve_bounce |].
  split; [apply resolve_rest |].
  split; [apply resolve64_no_contact |].
  split; [apply resolve64_bounce |].
  split; [apply resolve64_rest |].
  intros C Hv Hr Hf.
  rewrite resolve64_bounce; [| exact C | rewrite Hv; reflexivity].
  cbn [Binary64.velocity]. rewrite Hv, Hr, Hf. reflexivity.
Qed.

Lemma resolve_contract_witness :
  let above := {| positionY := 3; velocity := -2; isResting := false |} in
  let fast := {| positionY := 0.99; velocity := -1; isResting := false |} in
  let slow := {| positionY := 0.9999; velocity := -0.005; isResting := false |} in
  resolve defaultParameters above = above /\
  resolve defaultParameters fast =
    {| positionY := 1; velocity := - (-1) * 0.7 * (1 - 0.03); isResting := false |} /\
  resolve defaultParameters slow =
    {| positionY := 1; velocity := 0; isResting := true |} /\
  Binary64.velocity
    (Binary64.resolve Binary64.defaultParameters Binary64.contactAtMinusOne)
    = 0.6789999999999999%float.
Proof.
  intros above fast slow.
  pose (p' := Binary64.defaultParameters).
  pose (s' := Binary64.contactAtMinusOne).
  split; [| split; [| split]].
  - apply (proj1 (resolve_contract defaultParameters above p' s')).
    vm_compute; discriminate.
  - apply (proj1 (proj2 (resolve_contract defaultParameters fast p' s')));
      vm_compute; reflexivity.
  - apply (proj1 (proj2 (proj2 (resolve_contract defaultParameters slow p' s')))).
    + vm_compute; reflexivity.
    + vm_compute; discriminate.
  - apply (proj2 (proj2 (proj2 (proj2 (proj2 (proj2
             (resolve_contract defaultParameters fast p' s')))))));
      reflexivity.
Defined.

(** C1, as the spec states it, fails: the velocity the code leaves after a
    contact at velocity -1 with restitution 0.7 and friction 0.03 is not the
    number 0.679. *)
Lemma resolve_scenario_is_not_0_679 :
  Binary64.velocity
    (Binary64.resolve Binary64.defaultParameters Binary64.contactAtMinusOne)
  <> 0.679%float.
Proof.
  intro H. apply (f_equal (fun x => PrimFloat.eqb x 0.679%float)) in H.
  vm_compute in H. discriminate.
Qed.

(** C2, as the code has it: a frame on a state that is not resting
    integrates before it checks for a collision, and the integration updates
    the velocity first, [velocity' = velocity - gravity * dt], and the
    position with the updated velocity,
    [positionY' = positionY + velocity' * dt], each operation rounded in
    binary64; with gravity 9.8 and dt 0.016, from height 10 at velocity 0, it
    gives velocity -0.15680000000000002 and height 9.9974912, which a radius
    of 1 leaves without collision. *)
Theorem integrate_contract (p : SimulationParameters) (dt : Q) (s : PhysicsState)
    (p' : Binary64.Parameters) (dt' : float) (s' : Binary64.State) :
  velocity (integrate p dt s) = velocity s - gravity p * dt /\
  positionY (integrate p dt s) = positionY s + velocity (integrate p dt s) * dt /\
  isResting (integrate p dt s) = isResting s /\
  (forall raw w, isResting (phys w) = false ->
     phys (animate p raw w) = resolve p (integrate p (cappedDelta raw) (phys w))) /\
  Binary64.velocity (Binary64.integrate p' dt' s')
    = (Binary64.velocity s' - Binary64.gravity p' * dt')%float /\
  Binary64.positionY (Binary64.integrate p' dt' s')
    = (Binary64.positionY s'
       + Binary64.velocity (Binary64.integrate p' dt' s') * dt')%float /\
  Binary64.isResting (Binary64.integrate p' dt' s') = Binary64.isResting s' /\
  (Binary64.isResting s' = false ->
   forall raw, Binary64.animate p' raw s'
     = Binary64.resolve p'
         (Binary64.integrate p' (Binary64.min raw Binary64.maxDelta) s')) /\
  (Binary64.gravity p' = 9.8%float -> dt' = 0.016%float ->
   Binary64.positionY s' = 10%float -> Binary64.velocity s' = 0%float ->
     Binary64.velocity (Binary64.integrate p' dt' s')
       = (-0.15680000000000002)%float /\
     Binary64.positionY (Binary64.integrate p' dt' s') = 9.9974912%float /\
     (Binary64.sphereRadius p' = 1%float ->
      Binary64.resolve p' (Binary64.integrate p' dt' s')
        = Binary64.integrate p' dt' s')).
Proof.
  split; [reflexivity |]. split; [reflexivity |]. split; [reflexivity |].
  split; [intros raw w H; apply phys_animate_falling, H |].
  split; [reflexivity |]. split; [reflexivity |]. split; [reflexivity |].
  split.
  - intros F raw. unfold Binary64.animate. rewrite F. reflexivity.
  - intros Hg Hd Hy Hv.
    assert (V : Binary64.velocity (Binary64.integrate p' dt' s')
                = (-0.15680000000000002)%float).
    { cbn. rewrite Hg, Hd, Hv. reflexivity. }
    assert (Y : Binary64.positionY (Binary64.integrate p' dt' s')
                = 9.9974912%float).
    { cbn. rewrite Hg, Hd, Hy, Hv. reflexivity. }
    split; [exact V |]. split; [exact Y |].
    intro R. apply resolve64_no_contact. rewrite Y, R. reflexivity.
Qed.

Lemma integrate_contract_witness :
  let s' := Binary64.integrate Binary64.defaultParameters 0.016%float
              Binary64.initialState in
  Binary64.velocity s' = (-0.15680000000000002)%float /\
  Binary64.positionY s' = 9.9974912%float /\
  Binary64.resolve Binary64.defaultParameters s' = s' /\
  Binary64.animate Binary64.defaultParameters 0.016%float Binary64.initialState
    = s' /\
  phys (animate defaultParameters 0.016 sessionStart) =
    resolve defaultParameters (integrate defaultParameters (cappedDelta 0.016) initialState).
Proof.
  pose proof (integrate_contract defaultParameters 0.016 initialState
                Binary64.defaultParameters 0.016%float Binary64.initialState)
    as (_ & _ & _ & F & _ & _ & _ & A & S).
  specialize (S eq_refl eq_refl eq_refl eq_refl).
  destruct S as (V & Y & N).
  split; [exact V |]. split; [exact Y |]. split; [apply N; reflexivity |].
  split.
  - rewrite (A eq_refl 0.016%float).
    change (Binary64.min 0.016 Binary64.maxDelta) with 0.016%float.
    apply N. reflexivity.
  - apply (F 0.016 sessionStart). reflexivity.
Defined.

(** C2, as the spec states it, fails: the velocity the code has after one
    step of 0.016 under gravity 9.8 from rest is not the number -0.1568. *)
Lemma integrate_scenario_is_not_minus_0_1568 :
  Binary64.velocity
    (Binary64.integrate Binary64.defaultParameters 0.016%float
       Binary64.initialState)
  <> (-0.1568)%float.
Proof.
  intro H. apply (f_equal (fun x => PrimFloat.eqb x (-0.1568)%float)) in H.
  vm_compute in H. discriminate.
Qed.

(** C3: after the collision check the height is at least the radius, and
    it is the radius whenever the check found the sphere below it; so every
    frame that runs the simulation step ends with [positionY >= sphereRadius]. *)
Theorem resolve_clamp (p : SimulationParameters) (s : PhysicsState) :
  sphereRadius p <= positionY (resolve p s) /\
  (positionY s < sphereRadius p -> positionY (resolve p s) = sphereRadius p) /\
  (forall raw w, isResting (phys w) = false ->
     sphereRadius p <= positionY (phys (animate p raw w))).
Proof.
  assert (A : forall t, sphereRadius p <= positionY (resolve p t)).
  { intro t.
    destruct (resolve_cases p t) as [(C & ->) | [(C & _ & ->) | (C & _ & ->)]];
      cbn; lra. }
  assert (B : forall t, positionY t < sphereRadius p ->
                        positionY (resolve p t) = sphereRadius p).
  { intros t C.
    destruct (resolve_cases p t) as [(N & _) | [(_ & _ & ->) | (_ & _ & ->)]];
      [exfalso; lra | reflexivity | reflexivity]. }
  repeat split.
  - apply A.
  - apply B.
  - intros raw w H. rewrite phys_animate_falling by exact H. apply A.
Qed.

Lemma resolve_clamp_witness :
  let s := {| positionY := 0.25; velocity := -3; isResting := false |} in
  positionY (resolve defaultParameters s) = 1 /\
  1 <= positionY (phys (animate defaultParameters 0.016 sessionStart)).
Proof.
  intro s. split.
  - apply (proj1 (proj2 (resolve_clamp defaultParameters s))).
    vm_compute; reflexivity.
  - apply (proj2 (proj2 (resolve_clamp defaultParameters s)) 0.016 sessionStart).
    reflexivity.
Defined.

(** ** Invariants of a session *)

Section Invariants.

Variable p : SimulationParameters.

Lemma resolve_resting_inv (s : PhysicsState) :
  isResting s = false ->
  isResting (resolve p s) = true ->
  velocity (resolve p s) = 0 /\ positionY (resolve p s) = sphereRadius p.
Proof.
  intros F.
  destruct (resolve_cases p s) as [(_ & ->) | [(_ & _ & ->) | (_ & _ & ->)]];
    cbn; intro T; try congruence.
  split; reflexivity.
Qed.

Lemma reachable_run (acts : list Action) (w : World) :
  reachable p w -> reachable p (run p acts w).
Proof.
  revert w. induction acts as [| a acts IH]; intros w R; cbn.
  - exact R.
  - apply IH. constructor. exact R.
Qed.

Lemma frames_resting (raws : list Q) (w : World) :
  isResting (phys w) = true -> phys (frames p raws w) = phys w.
Proof.
  revert w. induction raws as [| raw raws IH]; intros w T; cbn.
  - reflexivity.
  - unfold frames in IH. rewrite IH.
    + apply phys_animate_resting, T.
    + rewrite phys_animate_resting; exact T.
Qed.

End Invariants.

(** C4: in every state reachable from the session start by frames and
    resets, [isResting] implies [velocity = 0] and
    [positionY = sphereRadius]. *)
Theorem resting_invariant (p : SimulationParameters) (w : World) :
  reachable p w ->
  isResting (phys w) = true ->
  velocity (phys w) = 0 /\ positionY (phys w) = sphereRadius p.
Proof.
  induction 1 as [| w a R IH].
  - cbn. discriminate.
  - destruct a as [raw |]; cbn [step].
    + destruct (isResting (phys w)) eqn:E.
      * rewrite phys_animate_resting by exact E. rewrite E. exact IH.
      * rewrite phys_animate_falling by exact E.
        apply resolve_resting_inv. exact E.
    + cbn. discriminate.
Qed.

Lemma resting_invariant_witness :
  let w := run defaultParameters runToRest sessionStart in
  isResting (phys w) = true /\
  velocity (phys w) = 0 /\ positionY (phys w) = 1.
Proof.
  intro w.
  assert (T : isResting (phys w) = true) by (vm_compute; reflexivity).
  split; [exact T |].
  apply (resting_invariant defaultParameters w).
  - apply reachable_run, reachable_start.
  - exact T.
Defined.

(** C5: from a resting state, any number of further frames leaves
    [positionY], [velocity] and [isResting] as they are. *)
Theorem rest_is_stable (p : SimulationParameters) (raws : list Q) (w : World) :
  isResting (phys w) = true ->
  phys (frames p raws w) = phys w.
Proof. apply frames_resting. Qed.

Lemma rest_is_stable_witness :
  let w := {| phys := {| positionY := 1; velocity := 0; isResting := true |};
              trace := [] |} in
  phys (frames defaultParameters [0.016; 0.25; 0.016] w) = phys w.
Proof.
  intro w.
  apply (rest_is_stable defaultParameters [0.016; 0.25; 0.016] w).
  reflexivity.
Defined.

(** ** Reset and the delta cap *)

(** C7: whatever the state before, a reset leaves height [dropHeight],
    velocity 0 and [isResting] false, and nothing else changes: it reads no
    clock, schedules no frame and renders nothing (the trace is as it was),
    and it takes and returns no parameters; in the initial state it changes
    nothing at all. *)
Theorem reset_contract (w : World) :
  phys (resetSimulation w) =
    {| positionY := dropHeight; velocity := 0; isResting := false |} /\
  trace (resetSimulation w) = trace w /\
  (phys w = initialState -> resetSimulation w = w) /\
  resetSimulation (resetSimulation w) = resetSimulation w.
Proof.
  split; [reflexivity |]. split; [reflexivity |]. split; [| reflexivity].
  destruct w as [s t]. cbn. intros ->. reflexivity.
Qed.

Lemma reset_contract_witness : resetSimulation sessionStart = sessionStart.
Proof.
  apply (proj1 (proj2 (proj2 (reset_contract sessionStart)))).
  reflexivity.
Defined.

(** C8: the time step a frame integrates with is
    [min(rawDelta, maxDelta)], which is [maxDelta] itself for every raw
    delta over [maxDelta]. *)
Theorem delta_cap (p : SimulationParameters) (raw : Q) (w : World) :
  isResting (phys w) = false ->
  phys (animate p raw w) = resolve p (integrate p (Qmin raw maxDelta) (phys w)) /\
  (maxDelta < raw ->
     Qmin raw maxDelta = maxDelta /\
     phys (animate p raw w) = resolve p (integrate p maxDelta (phys w))).
Proof.
  intro F.
  assert (A : phys (animate p raw w) =
              resolve p (integrate p (Qmin raw maxDelta) (phys w))).
  { apply phys_animate_falling, F. }
  split; [exact A |].
  intro G.
  assert (M : Qmin raw maxDelta = maxDelta).
  { unfold Qmin, GenericMinMax.gmin.
    apply Qgt_alt in G. rewrite G. reflexivity. }
  split; [exact M |]. rewrite A, M. reflexivity.
Qed.

Lemma delta_cap_witness :
  Qmin 0.25 maxDelta = maxDelta /\
  phys (animate defaultParameters 0.25 sessionStart) =
    resolve defaultParameters (integrate defaultParameters maxDelta initialState).
Proof.
  apply (proj2 (delta_cap defaultParameters 0.25 sessionStart eq_refl)).
  reflexivity.
Defined.

(** ** Speed at a collision *)

Lemma Qabs_rebound (v r f : Q) :
  0 <= r -> 0 <= 1 - f -> Qabs (- v * r * (1 - f)) == Qabs v * r * (1 - f).
Proof.
  intros Hr Hf.
  rewrite !Qabs_Qmult, Qabs_opp, (Qabs_pos r), (Qabs_pos (1 - f)) by assumption.
  reflexivity.
Qed.

(** C10: with restitution and friction in [0,1], the collision check never
    increases the speed: [abs(velocity)] after it is at most [abs(velocity)]
    before it. *)
Theorem resolve_speed_nonincreasing (p : SimulationParameters) (s : PhysicsState) :
  0 <= restitution p <= 1 ->
  0 <= friction p <= 1 ->
  Qabs (velocity (resolve p s)) <= Qabs (velocity s).
Proof.
  intros [R0 R1] [F0 F1].
  pose proof (Qabs_nonneg (velocity s)) as A.
  destruct (resolve_cases p s) as [(_ & ->) | [(_ & _ & ->) | (_ & _ & ->)]];
    cbn [velocity].
  - lra.
  - rewrite Qabs_rebound by lra.
    assert (0 <= Qabs (velocity s) * restitution p) by nra.
    assert (Qabs (velocity s) * restitution p <= Qabs (velocity s)) by nra.
    nra.
  - exact A.
Qed.

Lemma resolve_speed_nonincreasing_witness :
  let s := {| positionY := 0.5; velocity := -4; isResting := false |} in
  Qabs (velocity (resolve defaultParameters s)) <= 4.
Proof.
  intro s.
  apply (resolve_speed_nonincreasing defaultParameters s);
    split; vm_compute; discriminate.
Defined.

(** ** Bounce events *)

(** Successive rebound speeds can grow: under [steepParameters] the first
    three frames of a session all bounce, with rebound speeds 50, 25 and
    37.5. *)
Lemma rebound_speeds_can_grow :
  ~ (forall (p : SimulationParameters) (raws : list Q),
       0 < restitution p < 1 -> 0 <= friction p < 1 ->
       strictlyDecreasing (reboundSpeeds p raws sessionStart)).
Proof.
  intro H.
  assert (G : strictlyDecreasing
                (reboundSpeeds steepParameters [0.1; 0.1; 0.1] sessionStart)).
  { apply H; split; vm_compute; (reflexivity || discriminate). }
  vm_compute in G. destruct G as (_ & G & _). discriminate.
Qed.

(** The same with the default parameters: at ten frames a second the
    seventh rebound of a session is slower than the eighth. *)
Lemma default_rebound_speeds_grow :
  ~ strictlyDecreasing
      (reboundSpeeds defaultParameters (repeat 0.1 60%nat) sessionStart).
Proof.
  intro G. apply strictlyDecreasingb_complete in G. revert G.
  vm_compute. discriminate.
Qed.

(** *** The default session at 16 ms a frame, in binary64 *)

Section Steady.

Variable p : Binary64.Parameters.

Lemma frames64_app (l l' : list float) (s : Binary64.State) :
  Binary64.frames p (l ++ l') s = Binary64.frames p l' (Binary64.frames p l s).
Proof. apply fold_left_app. Qed.

Lemma frames64_resting (raws : list float) (s : Binary64.State) :
  Binary64.isResting s = true -> Binary64.frames p raws s = s.
Proof.
  intro T. induction raws as [| raw raws IH]; [reflexivity |].
  cbn [Binary64.frames fold_left]. unfold Binary64.animate at 2.
  rewrite T. exact IH.
Qed.

End Steady.

Lemma steady_add (n m : nat) :
  Binary64.steady (n + m)
  = Binary64.frames Binary64.defaultParameters (repeat 0.016%float m)
      (Binary64.steady n).
Proof. unfold Binary64.steady. rewrite repeat_app. apply frames64_app. Qed.

(** From frame 503 on the state alternates between two values. *)
Lemma steady_period : Binary64.steady 505 = Binary64.steady 503.
Proof. vm_compute. reflexivity. Qed.

Lemma steady_cycle (j : nat) :
  Binary64.steady (503 + 2 * j) = Binary64.steady 503.
Proof.
  induction j as [| j IH].
  - rewrite Nat.mul_0_r, Nat.add_0_r. reflexivity.
  - replace (503 + 2 * S j)%nat with ((503 + 2 * j) + 2)%nat by lia.
    rewrite steady_add, IH, <- steady_add. exact steady_period.
Qed.

Lemma steady_not_resting (n : nat) :
  Binary64.isResting (Binary64.steady n) = false.
Proof.
  destruct (Binary64.isResting (Binary64.steady n)) eqn:T; [| reflexivity].
  assert (E : Binary64.steady (503 + 2 * n) = Binary64.steady n).
  { replace (503 + 2 * n)%nat with (n + (503 + n))%nat by lia.
    rewrite steady_add. apply frames64_resting, T. }
  rewrite steady_cycle in E.
  assert (F : Binary64.isResting (Binary64.steady 503) = false)
    by (vm_compute; reflexivity).
  rewrite E, T in F. discriminate.
Qed.

(** C6: the code at the failing input.  With the default parameters and a
    clock delta of 16 ms in every frame, computed in binary64 as the code
    computes: frames 416 and 417 of the session both take the bounce branch,
    and the second rebound, 0.0701146787014512, is faster than the first,
    0.05353832297282593; and the session is not resting after any number of
    frames. *)
Theorem steady_session_never_comes_to_rest :
  Binary64.bounces Binary64.defaultParameters 0.016%float (Binary64.steady 415)
    = true /\
  Binary64.velocity (Binary64.steady 416) = 0.05353832297282593%float /\
  Binary64.bounces Binary64.defaultParameters 0.016%float (Binary64.steady 416)
    = true /\
  Binary64.velocity (Binary64.steady 417) = 0.0701146787014512%float /\
  (Binary64.velocity (Binary64.steady 416)
     <? Binary64.velocity (Binary64.steady 417))%float = true /\
  (forall n : nat, Binary64.isResting (Binary64.steady n) = false).
Proof.
  split; [vm_compute; reflexivity |].
  split; [vm_compute; reflexivity |].
  split; [vm_compute; reflexivity |].
  split; [vm_compute; reflexivity |].
  split; [vm_compute; reflexivity |].
  exact steady_not_resting.
Qed.

(** *** A session that bounces for ever *)

Lemma frames_app (p : SimulationParameters) (l l' : list Q) (w : World) :
  frames p (l ++ l') w = frames p l' (frames p l w).
Proof. apply fold_left_app. Qed.

Lemma jitters_animate (w : World) :
  jitters (phys w) -> jitters (phys (animate defaultParameters 0.1 w)).
Proof.
  intros (F & Y & V). rewrite phys_animate_falling by exact F.
  set (s := integrate defaultParameters (cappedDelta 0.1) (phys w)).
  assert (Ev : velocity s == velocity (phys w) - 0.98).
  { unfold s. cbn. ring. }
  assert (Ey : positionY s == 1 + (velocity (phys w) - 0.98) * 0.1).
  { unfold s. cbn. rewrite Y. ring. }
  assert (C : positionY s < sphereRadius defaultParameters).
  { rewrite Ey. cbn. lra. }
  assert (A : Qabs (velocity s) == 0.98 - velocity (phys w)).
  { rewrite Qabs_neg by lra. lra. }
  assert (G : restThreshold < Qabs (velocity s)).
  { rewrite A. unfold restThreshold. lra. }
  rewrite (resolve_bounce defaultParameters s C G).
  split; [exact F |]. split; [reflexivity |].
  cbn [velocity restitution friction defaultParameters]. rewrite Ev. lra.
Qed.

Lemma jitters_frames (n : nat) (w : World) :
  jitters (phys w) ->
  jitters (phys (frames defaultParameters (repeat 0.1 n) w)).
Proof.
  revert w. induction n as [| n IH]; intros w J.
  - exact J.
  - cbn. apply IH, jitters_animate, J.
Qed.

Lemma jitters_after_58_frames :
  jitters (phys (frames defaultParameters (repeat 0.1 58%nat) sessionStart)).
Proof.
  split; [| split; [| split]].
  - vm_compute; reflexivity.
  - vm_compute; reflexivity.
  - vm_compute; discriminate.
  - vm_compute; discriminate.
Qed.

(** X13: with the default parameters and every clock delta at the cap
    (ten frames a second), a session that is not reset never
    reaches the resting state: after 58 frames it bounces off the ground in
    every frame, at a contact speed between 0.46 and 0.68. *)
Theorem capped_session_never_rests (n : nat) :
  isResting (phys (frames defaultParameters (repeat 0.1 n) sessionStart)) = false.
Proof.
  destruct (Nat.le_gt_cases n 58) as [L | G].
  - (* resting before frame 58 would still be resting at frame 58 *)
    destruct (isResting (phys (frames defaultParameters (repeat 0.1 n) sessionStart)))
      eqn:E; [| reflexivity].
    pose proof jitters_after_58_frames as (F & _).
    replace 58%nat with (n + (58 - n))%nat in F by lia.
    rewrite repeat_app, frames_app, frames_resting in F by exact E.
    congruence.
  - replace n with (58 + (n - 58))%nat by lia.
    rewrite repeat_app, frames_app.
    apply jitters_frames, jitters_after_58_frames.
Qed.

(** ** Order of the effects of a frame *)

Lemma skipn_length_app {A : Type} (l l' : list A) :
  skipn (length l) (l ++ l') = l'.
Proof. induction l as [| x l IH]; [reflexivity | exact IH]. Qed.

(** C9, as the code has it: a frame first schedules the next frame; if the
    state is not resting it then reads the clock, integrates and checks for a
    collision; last it renders the state it has reached.  A frame on a
    resting state reads no clock. *)
Theorem frame_sequence (p : SimulationParameters) (raw : Q) (w : World) :
  trace (animate p raw w) = trace w ++ eventsOfFrame p raw w /\
  phys (animate p raw w) =
    (if isResting (phys w) then phys w
     else resolve p (integrate p (cappedDelta raw) (phys w))) /\
  eventsOfFrame p raw w =
    (if isResting (phys w)
     then [RequestAnimationFrame; Render (positionY (phys w))]
     else [RequestAnimationFrame; ClockGetDelta;
           Render (positionY (phys (animate p raw w)))]).
Proof.
  unfold eventsOfFrame.
  destruct (isResting (phys w)) eqn:E.
  - rewrite animate_resting by exact E. cbn [trace phys].
    rewrite skipn_length_app. repeat split.
  - rewrite animate_falling by exact E. cbn [trace phys].
    rewrite skipn_length_app. repeat split.
Qed.

(** C9, as the spec states it, fails: a frame on a resting state does not
    read the clock. *)
Lemma resting_frame_reads_no_clock :
  ~ (forall (p : SimulationParameters) (raw : Q) (w : World),
       In ClockGetDelta (eventsOfFrame p raw w)).
Proof.
  intro H. specialize (H defaultParameters 0.016 restingWorld).
  cbn in H. destruct H as [H | [H | []]]; discriminate.
Qed.

(** * Further properties of the simulation *)

(** ** The physics of a frame does not depend on the trace *)

Section Physics.

Variable p : SimulationParameters.

Lemma phys_animate (raw : Q) (w : World) :
  phys (animate p raw w) = physStep p raw (phys w).
Proof.
  unfold animate, physStep. destruct (negb (isResting (phys w))); reflexivity.
Qed.

Lemma phys_step_ext (a : Action) (w w' : World) :
  phys w = phys w' -> phys (step p w a) = phys (step p w' a).
Proof.
  intro E. destruct a as [raw |]; cbn [step].
  - rewrite !phys_animate, E. reflexivity.
  - reflexivity.
Qed.

Lemma phys_run_ext (acts : list Action) (w w' : World) :
  phys w = phys w' -> phys (run p acts w) = phys (run p acts w').
Proof.
  revert w w'. induction acts as [| a acts IH]; intros w w' E; cbn.
  - exact E.
  - apply IH, phys_step_ext, E.
Qed.

Lemma run_app (acts acts' : list Action) (w : World) :
  run p (acts ++ acts') w = run p acts' (run p acts w).
Proof. apply fold_left_app. Qed.

Lemma run_frames (raws : list Q) (w : World) :
  run p (map Frame raws) w = frames p raws w.
Proof.
  revert w. induction raws as [| raw raws IH]; intro w; cbn.
  - reflexivity.
  - apply IH.
Qed.

Lemma resolve_above_ground (s : PhysicsState) :
  sphereRadius p <= positionY (resolve p s).
Proof.
  destruct (resolve_cases p s) as [(C & ->) | [(C & _ & ->) | (C & _ & ->)]];
    cbn; lra.
Qed.

Lemma physStep_resting_inv (raw : Q) (s : PhysicsState) :
  (isResting s = true -> velocity s = 0 /\ positionY s = sphereRadius p) ->
  isResting (physStep p raw s) = true ->
  velocity (physStep p raw s) = 0 /\ positionY (physStep p raw s) = sphereRadius p.
Proof.
  intro I. unfold physStep. destruct (isResting s) eqn:E; cbn [negb].
  - intros _. apply I. reflexivity.
  - apply resolve_resting_inv. exact E.
Qed.

End Physics.

(** X2: whatever happened before a reset, the physics after it is that of
    a fresh session given the same frames and resets. *)
Theorem reset_forgets_history (p : SimulationParameters)
    (before after : list Action) (w : World) :
  phys (run p (before ++ ResetClick :: after) w) = phys (run p after sessionStart).
Proof.
  rewrite run_app. cbn [run fold_left step].
  apply phys_run_ext. reflexivity.
Qed.

(** ** Where the sphere is, and where it is drawn *)

Section Ground.

Variable p : SimulationParameters.

Lemma reachable_resting_inv (w : World) :
  reachable p w ->
  isResting (phys w) = true ->
  velocity (phys w) = 0 /\ positionY (phys w) = sphereRadius p.
Proof.
  induction 1 as [| w a R IH].
  - cbn. discriminate.
  - destruct a as [raw |]; cbn [step].
    + rewrite phys_animate. apply physStep_resting_inv, IH.
    + cbn. discriminate.
Qed.

Lemma renderedHeights_app (t t' : list Event) :
  renderedHeights (t ++ t') = renderedHeights t ++ renderedHeights t'.
Proof. apply flat_map_app. Qed.

Lemma occurrences_app (kind : Event -> bool) (t t' : list Event) :
  occurrences kind (t ++ t') = (occurrences kind t + occurrences kind t')%nat.
Proof. unfold occurrences. rewrite filter_app, length_app. reflexivity. Qed.

Lemma occurrences_animate (kind : Event -> bool) (raw : Q) (w : World) :
  occurrences kind (trace (animate p raw w))
    = (occurrences kind (trace w)
       + (if kind RequestAnimationFrame then 1 else 0)
       + (if isResting (phys w) then 0
          else if kind ClockGetDelta then 1 else 0)
       + (if kind (Render (positionY (phys (animate p raw w)))) then 1 else 0))%nat.
Proof.
  destruct (isResting (phys w)) eqn:E.
  - rewrite animate_resting by exact E. cbn [trace phys].
    rewrite occurrences_app. unfold occurrences. cbn.
    destruct (kind RequestAnimationFrame), (kind (Render (positionY (phys w))));
      cbn; lia.
  - rewrite animate_falling by exact E. cbn [trace phys].
    rewrite occurrences_app. unfold occurrences. cbn.
    destruct (kind RequestAnimationFrame), (kind ClockGetDelta),
      (kind (Render (positionY
                       (resolve p (integrate p (cappedDelta raw) (phys w))))));
      cbn; lia.
Qed.

End Ground.

(** X3: when the sphere fits under the drop height
    ([sphereRadius <= 10]), its centre is never below the radius, in any
    state a session reaches by frames and resets. *)
Theorem never_below_ground (p : SimulationParameters) (w : World) :
  sphereRadius p <= dropHeight ->
  reachable p w ->
  sphereRadius p <= positionY (phys w).
Proof.
  intros H R. induction R as [| w a R IH].
  - exact H.
  - destruct a as [raw |]; cbn [step].
    + rewrite phys_animate. unfold physStep.
      destruct (negb (isResting (phys w))).
      * apply resolve_above_ground.
      * exact IH.
    + exact H.
Qed.

Lemma never_below_ground_witness :
  1 <= positionY (phys (run defaultParameters
                          [Frame 0.1; Frame 0.1; ResetClick; Frame 0.02]
                          sessionStart)).
Proof.
  apply (never_below_ground defaultParameters).
  - vm_compute; discriminate.
  - apply reachable_run, reachable_start.
Defined.

(** X4: whatever the radius, no frame of a session draws the sphere with
    its centre below the radius: every height in the trace of a reachable
    state is at least [sphereRadius]. *)
Theorem rendered_never_below_ground (p : SimulationParameters) (w : World) :
  reachable p w ->
  Forall (fun y => sphereRadius p <= y) (renderedHeights (trace w)).
Proof.
  induction 1 as [| w a R IH].
  - constructor.
  - destruct a as [raw |]; cbn [step].
    + destruct (isResting (phys w)) eqn:E.
      * rewrite animate_resting by exact E. cbn [trace].
        rewrite renderedHeights_app. apply Forall_app. split; [exact IH |].
        cbn. constructor; [| constructor].
        destruct (reachable_resting_inv p w R E) as (_ & ->). apply Qle_refl.
      * rewrite animate_falling by exact E. cbn [trace].
        rewrite renderedHeights_app. apply Forall_app. split; [exact IH |].
        cbn. constructor; [| constructor]. apply resolve_above_ground.
    + exact IH.
Qed.

Lemma rendered_never_below_ground_witness :
  Forall (fun y => 1 <= y)
    (renderedHeights (trace (run defaultParameters runToRest sessionStart))).
Proof.
  apply (rendered_never_below_ground defaultParameters).
  apply reachable_run, reachable_start.
Defined.

(** X5: every frame, resting or not, schedules the next frame once and
    renders once, and a reset does neither; the clock is read at most once
    a frame. *)
Theorem frame_loop_effects (p : SimulationParameters) (acts : list Action)
    (w : World) :
  (occurrences isRequest (trace (run p acts w))
     = occurrences isRequest (trace w) + frameCount acts)%nat /\
  (occurrences isRender (trace (run p acts w))
     = occurrences isRender (trace w) + frameCount acts)%nat /\
  (occurrences isClockRead (trace (run p acts w))
     <= occurrences isClockRead (trace w) + frameCount acts)%nat.
Proof.
  revert w. induction acts as [| a acts IH]; intro w.
  - cbn. lia.
  - cbn [run fold_left]. fold (run p acts (step p w a)).
    destruct (IH (step p w a)) as (Q1 & Q2 & Q3).
    destruct a as [raw |]; cbn [step frameCount] in *.
    + rewrite occurrences_animate in Q1, Q2, Q3. cbn in Q1, Q2, Q3.
      destruct (isResting (phys w)); lia.
    + unfold resetSimulation in *. cbn [trace] in *. lia.
Qed.

(** X6: from a resting state, each further frame adds to the trace a
    request for the next frame and a render at the unchanged height, and
    nothing else: the clock is not read while the sphere rests. *)
Theorem resting_frames_trace (p : SimulationParameters) (raws : list Q)
    (w : World) :
  isResting (phys w) = true ->
  trace (frames p raws w)
    = trace w
      ++ flat_map (fun _ => [RequestAnimationFrame; Render (positionY (phys w))])
                  raws.
Proof.
  revert w. induction raws as [| raw raws IH]; intros w T.
  - cbn. rewrite app_nil_r. reflexivity.
  - cbn [frames fold_left]. fold (frames p raws (animate p raw w)).
    rewrite IH; rewrite animate_resting by exact T; cbn [phys trace].
    + rewrite <- app_assoc. reflexivity.
    + exact T.
Qed.

Lemma resting_frames_trace_witness :
  trace (frames defaultParameters [0.016; 0.3] restingWorld)
    = [RequestAnimationFrame; Render 1; RequestAnimationFrame; Render 1].
Proof.
  apply (resting_frames_trace defaultParameters [0.016; 0.3] restingWorld).
  reflexivity.
Defined.

(** ** Edges of a frame *)

(** X7: a sphere larger than the drop height ([sphereRadius > 10]) is
    lifted to the height of its radius by the first frame of a session,
    whatever the clock delta; when gravity gains it no more than
    [restThreshold] of speed in that frame (a clock delta of 0, say), that
    first frame also puts it to rest. *)
Theorem oversized_sphere_snaps (p : SimulationParameters) (raw : Q) (w : World) :
  dropHeight < sphereRadius p ->
  0 <= gravity p ->
  phys w = initialState ->
  positionY (phys (animate p raw w)) = sphereRadius p /\
  (Qabs (gravity p * cappedDelta raw) <= restThreshold ->
   isResting (phys (animate p raw w)) = true).
Proof.
  intros H G E. rewrite phys_animate, E. unfold physStep. cbn [isResting initialState negb].
  set (d := cappedDelta raw).
  set (s := integrate p d initialState).
  assert (C : positionY s < sphereRadius p).
  { unfold s, dropHeight in *. cbn. nra. }
  split.
  - destruct (resolve_cases p s) as [(N & _) | [(_ & _ & ->) | (_ & _ & ->)]];
      [exfalso; lra | reflexivity | reflexivity].
  - intro V. rewrite resolve_rest; [reflexivity | exact C |].
    assert (A : velocity s == - (gravity p * d)) by (unfold s; cbn; ring).
    rewrite A, Qabs_opp. exact V.
Qed.

Lemma oversized_sphere_snaps_witness :
  let big := {| restitution := 0.7; gravity := 9.8; sphereRadius := 12;
                friction := 0.03 |} in
  positionY (phys (animate big 0.016 sessionStart)) = 12 /\
  isResting (phys (animate big 0 sessionStart)) = true.
Proof.
  intro big.
  assert (H : dropHeight < sphereRadius big) by (vm_compute; reflexivity).
  assert (G : 0 <= gravity big) by (vm_compute; discriminate).
  split.
  - apply (proj1 (oversized_sphere_snaps big 0.016 sessionStart H G eq_refl)).
  - apply (proj2 (oversized_sphere_snaps big 0 sessionStart H G eq_refl)).
    vm_compute; discriminate.
Defined.

(** X8: a frame puts the sphere to rest only on a slow contact: if a frame
    that starts not resting ends resting, then the integration took the
    sphere below the radius at a speed of [restThreshold] or less, and the
    frame leaves it on the ground with velocity 0. *)
Theorem rest_only_on_slow_contact (p : SimulationParameters) (raw : Q) (w : World) :
  isResting (phys w) = false ->
  isResting (phys (animate p raw w)) = true ->
  positionY (integrate p (cappedDelta raw) (phys w)) < sphereRadius p /\
  contactSpeed p raw (phys w) <= restThreshold /\
  velocity (phys (animate p raw w)) = 0 /\
  positionY (phys (animate p raw w)) = sphereRadius p.
Proof.
  intros F. rewrite phys_animate_falling by exact F. unfold contactSpeed.
  set (s := integrate p (cappedDelta raw) (phys w)).
  assert (Fs : isResting s = false) by exact F.
  destruct (resolve_cases p s) as [(_ & ->) | [(_ & _ & ->) | (C & V & ->)]];
    cbn [isResting velocity positionY]; intro T; try congruence.
  repeat split; assumption.
Qed.

Lemma rest_only_on_slow_contact_witness :
  let w := {| phys := {| positionY := 1; velocity := 0.0975; isResting := false |};
              trace := [] |} in
  contactSpeed defaultParameters 0.01 (phys w) <= restThreshold /\
  positionY (phys (animate defaultParameters 0.01 w)) = 1.
Proof.
  intro w.
  pose proof (rest_only_on_slow_contact defaultParameters 0.01 w eq_refl
                ltac:(vm_compute; reflexivity)) as (_ & V & _ & Y).
  split; [exact V | exact Y].
Defined.

(** X9: the cap bounds what one frame does to the velocity: for a clock
    delta of any length (not negative) and gravity not negative, the
    integration lowers the velocity, and by at most [gravity * 0.1]. *)
Theorem capped_velocity_change (p : SimulationParameters) (raw : Q)
    (s : PhysicsState) :
  0 <= gravity p ->
  0 <= raw ->
  0 <= cappedDelta raw <= maxDelta /\
  velocity s - gravity p * maxDelta
    <= velocity (integrate p (cappedDelta raw) s) <= velocity s.
Proof.
  intros G R.
  assert (D : 0 <= cappedDelta raw <= maxDelta).
  { unfold cappedDelta. split.
    - apply Q.min_glb; [exact R | unfold maxDelta; lra].
    - apply Q.le_min_r. }
  split; [exact D |]. cbn [integrate velocity].
  destruct D as [D0 D1]. split; nra.
Qed.

Lemma capped_velocity_change_witness :
  velocity initialState - 9.8 * maxDelta
    <= velocity (integrate defaultParameters (cappedDelta 3600) initialState)
    <= velocity initialState.
Proof.
  apply (capped_velocity_change defaultParameters 3600 initialState);
    vm_compute; discriminate.
Defined.

(** ** Bouncing for ever *)

Section Trap.

Variable p : SimulationParameters.

Lemma trapped_physStep (raw : Q) (s : PhysicsState) :
  0 < cappedDelta raw ->
  0 <= bounceFactor p ->
  restThreshold < (1 - bounceFactor p) * (gravity p * cappedDelta raw) ->
  trapped p (cappedDelta raw) s ->
  bounces p (integrate p (cappedDelta raw) s) = true /\
  trapped p (cappedDelta raw) (physStep p raw s).
Proof.
  set (d := cappedDelta raw). intros D K T (F & Y & V0 & V1).
  unfold physStep. rewrite F. cbn [negb]. fold d.
  set (s1 := integrate p d s).
  assert (Ev : velocity s1 == velocity s - gravity p * d) by reflexivity.
  assert (Ey : positionY s1 == sphereRadius p + velocity s1 * d).
  { unfold s1. cbn. rewrite Y. reflexivity. }
  unfold restThreshold in T.
  assert (N : velocity s1 < 0) by (rewrite Ev; nra).
  assert (C : positionY s1 < sphereRadius p) by (rewrite Ey; nra).
  assert (A : Qabs (velocity s1) == - velocity s1) by (apply Qabs_neg; lra).
  assert (G : restThreshold < Qabs (velocity s1)).
  { rewrite A, Ev. unfold restThreshold. nra. }
  split.
  - unfold bounces, Qgtb. apply andb_true_intro.
    split; apply Qltb_true; assumption.
  - rewrite (resolve_bounce p s1 C G). unfold trapped.
    cbn [isResting positionY velocity].
    split; [exact F |]. split; [reflexivity |].
    assert (R : - velocity s1 * restitution p * (1 - friction p)
                == (gravity p * d - velocity s) * bounceFactor p).
    { unfold bounceFactor. rewrite Ev. ring. }
    rewrite R. split; nra.
Qed.

Lemma trapped_frames (raw : Q) (n : nat) (w : World) :
  0 < cappedDelta raw ->
  0 <= bounceFactor p ->
  restThreshold < (1 - bounceFactor p) * (gravity p * cappedDelta raw) ->
  trapped p (cappedDelta raw) (phys w) ->
  trapped p (cappedDelta raw) (phys (frames p (repeat raw n) w)).
Proof.
  intros D K T. revert w. induction n as [| n IH]; intros w J.
  - exact J.
  - cbn [repeat frames fold_left]. fold (frames p (repeat raw n) (animate p raw w)).
    apply IH. rewrite phys_animate.
    apply trapped_physStep; assumption.
Qed.

(** States that hold the same numbers step to states that hold the same
    numbers. *)

Lemma Qltb_wd (x x' y y' : Q) : x == x' -> y == y' -> Qltb x y = Qltb x' y'.
Proof. intros E E'. unfold Qltb. rewrite E, E'. reflexivity. Qed.

Lemma sameState_refl (s : PhysicsState) : sameState s s.
Proof. repeat split; reflexivity. Qed.

Lemma sameState_trans (s t u : PhysicsState) :
  sameState s t -> sameState t u -> sameState s u.
Proof.
  intros (Y & V & R) (Y' & V' & R').
  split; [rewrite Y; exact Y' |]. split; [rewrite V; exact V' | congruence].
Qed.

Lemma normalise_sameState (s : PhysicsState) : sameState (normalise s) s.
Proof. repeat split; cbn; apply Qred_correct. Qed.

Lemma integrate_sameState (d : Q) (s t : PhysicsState) :
  sameState s t -> sameState (integrate p d s) (integrate p d t).
Proof.
  intros (Y & V & R). unfold sameState. cbn.
  rewrite Y, V. repeat split; try reflexivity. exact R.
Qed.

Lemma resolve_sameState (s t : PhysicsState) :
  sameState s t -> sameState (resolve p s) (resolve p t).
Proof.
  intros (Y & V & R). unfold resolve, Qgtb.
  rewrite (Qltb_wd (positionY s) (positionY t) (sphereRadius p) (sphereRadius p))
    by (assumption || reflexivity).
  rewrite (Qltb_wd restThreshold restThreshold
             (Qabs (velocity s)) (Qabs (velocity t)))
    by (reflexivity || (rewrite V; reflexivity)).
  destruct (Qltb (positionY t) (sphereRadius p));
    [destruct (Qltb restThreshold (Qabs (velocity t))) |];
    unfold sameState; cbn.
  - rewrite V. repeat split; try reflexivity. exact R.
  - repeat split; reflexivity.
  - repeat split; assumption.
Qed.

Lemma physStep_sameState (raw : Q) (s t : PhysicsState) :
  sameState s t -> sameState (physStep p raw s) (physStep p raw t).
Proof.
  intros E. unfold physStep.
  replace (isResting s) with (isResting t) by (symmetry; apply E).
  destruct (negb (isResting t)).
  - apply resolve_sameState, integrate_sameState, E.
  - exact E.
Qed.

Lemma stepsNormalised_sameState (raw : Q) (n : nat) (s : PhysicsState) (w : World) :
  sameState s (phys w) ->
  sameState (stepsNormalised p raw n s) (phys (frames p (repeat raw n) w)).
Proof.
  revert s w. induction n as [| n IH]; intros s w E.
  - exact E.
  - cbn [stepsNormalised repeat frames fold_left].
    fold (frames p (repeat raw n) (animate p raw w)).
    apply IH. rewrite phys_animate.
    apply sameState_trans with (physStep p raw s).
    + apply normalise_sameState.
    + apply physStep_sameState, E.
Qed.

Lemma trapped_sameState (d : Q) (s t : PhysicsState) :
  sameState s t -> trapped p d s -> trapped p d t.
Proof.
  intros (Y & V & R) (F & Y' & V').
  split; [congruence |]. split; [rewrite <- Y; exact Y' |].
  rewrite <- V. exact V'.
Qed.

End Trap.



Lemma trapped_after_416_frames :
  trapped defaultParameters (cappedDelta 0.016)
    (phys (frames defaultParameters (repeat 0.016 416%nat) sessionStart)).
Proof.
  apply trapped_sameState
    with (s := stepsNormalised defaultParameters 0.016 416 initialState).
  - apply stepsNormalised_sameState, sameState_refl.
  - split; [vm_compute; reflexivity |]. split; [vm_compute; reflexivity |].
    split; vm_compute; discriminate.
Qed.

(** X12: with the default parameters and a clock delta of 16 ms in every
    frame, a session that is not reset never reaches the resting state,
    however many frames it runs: from frame 416 on the sphere bounces off the
    ground in every frame. *)
Theorem steady_session_never_rests (n : nat) :
  isResting (phys (frames defaultParameters (repeat 0.016 n) sessionStart)) = false.
Proof.
  destruct (Nat.le_gt_cases n 416) as [L | G].
  - destruct (isResting (phys (frames defaultParameters (repeat 0.016 n) sessionStart)))
      eqn:E; [| reflexivity].
    pose proof trapped_after_416_frames as (F & _).
    replace 416%nat with (n + (416 - n))%nat in F by lia.
    rewrite repeat_app, frames_app, frames_resting in F by exact E.
    congruence.
  - replace n with (416 + (n - 416))%nat by lia.
    rewrite repeat_app, frames_app.
    apply trapped_frames.
    + vm_compute; reflexivity.
    + vm_compute; discriminate.
    + vm_compute; reflexivity.
    + apply trapped_after_416_frames.
Qed.

(** X14: a contact turns the sphere around: when a frame with a capped
    delta that is not negative takes a sphere that was at or above the radius
    below it, the sphere was moving down, and the frame leaves it with a
    velocity that is not negative, provided
    [restitution * (1 - friction) >= 0]. *)
Theorem contact_turns_sphere_upward (p : SimulationParameters) (raw : Q)
    (w : World) :
  isResting (phys w) = false ->
  sphereRadius p <= positionY (phys w) ->
  0 <= cappedDelta raw ->
  0 <= bounceFactor p ->
  positionY (integrate p (cappedDelta raw) (phys w)) < sphereRadius p ->
  velocity (integrate p (cappedDelta raw) (phys w)) < 0 /\
  0 <= velocity (phys (animate p raw w)).
Proof.
  intros F Y D K C. rewrite phys_animate_falling by exact F.
  set (d := cappedDelta raw) in *.
  set (s := integrate p d (phys w)) in *.
  assert (Ey : positionY s == positionY (phys w) + velocity s * d) by reflexivity.
  assert (N : velocity s < 0).
  { destruct (Qlt_le_dec (velocity s) 0) as [L | L]; [exact L | exfalso; nra]. }
  split; [exact N |].
  destruct (resolve_cases p s) as [(A & _) | [(_ & _ & ->) | (_ & _ & ->)]];
    [exfalso; lra | |]; cbn [velocity].
  - assert (R : - velocity s * restitution p * (1 - friction p)
                == - velocity s * bounceFactor p).
    { unfold bounceFactor. ring. }
    rewrite R. nra.
  - lra.
Qed.

Lemma contact_turns_sphere_upward_witness :
  let w := {| phys := {| positionY := 1.01; velocity := -1; isResting := false |};
              trace := [] |} in
  0 <= velocity (phys (animate defaultParameters 0.01 w)).
Proof.
  intro w.
  apply (contact_turns_sphere_upward defaultParameters 0.01 w).
  - reflexivity.
  - vm_compute; discriminate.
  - vm_compute; discriminate.
  - vm_compute; discriminate.
  - vm_compute; reflexivity.
Defined.
